(** * Smart Home Controller: a shallow embedding of Smart_Home_Controller.py

    The program is one closure, [main], over four device objects, a device
    dictionary, an action log and two widgets shared between screens
    ([power_text], [log_table]).  Its functions are embedded here in a small
    state-and-exception monad over a record holding exactly those objects.

    Conventions of the embedding.
    - Python numbers are [PyInt] (unbounded [Z]) or [PyFloat] (IEEE binary64,
      Rocq's primitive [float]); mixed arithmetic converts the int operand,
      which can raise [OverflowError] as in CPython.
    - An f-string is kept as the list of its pieces: the literal parts as
      strings, the formatted holes as the value that is formatted.
    - [time.strftime] reads the wall clock: the reading is a parameter [t]
      of every function that reaches [log_action].
    - Calls into the toolkit that only repaint ([x.update()], [page.update()])
      do not touch the objects of the program and are left out. *)

From Stdlib Require Import ZArith Floats Ascii String.
From stdpp Require Import gmap strings list.

(** ** Python values *)

Inductive PyNum : Type :=
| PyInt (z : Z)
| PyFloat (f : float).

Inductive Exn : Type :=
| TypeError
| ValueError
| OverflowError
| KeyError (k : string)
| IndexError.

Inductive Res (A : Type) : Type :=
| Ok (a : A)
| Raise (e : Exn).
Arguments Ok {A} a.
Arguments Raise {A} e.

#[export] Instance Res_ret : MRet Res := λ A a, Ok a.
#[export] Instance Res_bind : MBind Res := λ A B k r,
  match r with
  | Ok a => k a
  | Raise e => Raise e
  end.

Definition is_ok {A} (r : Res A) : bool :=
  match r with Ok _ => true | Raise _ => false end.

(** [float(z)]: the nearest binary64 value, ties to even; CPython raises
    [OverflowError] when that value is not finite. *)
Definition float_of_int (z : Z) : Res float :=
  let f := SF2Prim (binary_normalize prec emax z 0 false) in
  if is_infinity f then Raise OverflowError else Ok f.

(** [int(f)]: truncation toward zero; [ValueError] on NaN, [OverflowError]
    on an infinity. *)
Definition int_of_float (f : float) : Res Z :=
  match Prim2SF f with
  | S754_nan => Raise ValueError
  | S754_infinity _ => Raise OverflowError
  | S754_zero _ => Ok 0%Z
  | S754_finite s m e =>
      let a := if (0 <=? e)%Z then Z.shiftl (Z.pos m) e
               else Z.shiftr (Z.pos m) (- e) in
      Ok (if s then (- a)%Z else a)
  end.

(** [int(x)] for an attribute that may hold [None]. *)
Definition py_int (x : option PyNum) : Res Z :=
  match x with
  | None => Raise TypeError
  | Some (PyInt z) => Ok z
  | Some (PyFloat f) => int_of_float f
  end.

(** Exact comparison of a float with an int ([float.__gt__], [int.__gt__]
    against the other type): no conversion, no rounding. *)
Definition sf_gt_int (x : spec_float) (z : Z) : bool :=
  match x with
  | S754_nan => false
  | S754_infinity s => negb s
  | S754_zero _ => (z <? 0)%Z
  | S754_finite s m e =>
      let v := if s then Z.neg m else Z.pos m in
      if (0 <=? e)%Z then (z <? Z.shiftl v e)%Z
      else (Z.shiftl z (- e) <? v)%Z
  end.

Definition sf_lt_int (x : spec_float) (z : Z) : bool :=
  match x with
  | S754_nan => false
  | S754_infinity s => s
  | S754_zero _ => (0 <? z)%Z
  | S754_finite s m e =>
      let v := if s then Z.neg m else Z.pos m in
      if (0 <=? e)%Z then (Z.shiftl v e <? z)%Z
      else (v <? Z.shiftl z (- e))%Z
  end.

(** [a > b] *)
Definition py_gt (a b : PyNum) : bool :=
  match a, b with
  | PyInt x, PyInt y => (y <? x)%Z
  | PyFloat x, PyFloat y => PrimFloat.ltb y x
  | PyFloat x, PyInt y => sf_gt_int (Prim2SF x) y
  | PyInt x, PyFloat y => sf_lt_int (Prim2SF y) x
  end.

(** [max(a, b)]: the first argument unless the second is strictly greater. *)
Definition py_max (a b : PyNum) : PyNum :=
  if py_gt b a then b else a.

(** Binary arithmetic: ints stay ints, a float operand makes the other one a
    float first. *)
Definition py_arith (fz : Z → Z → Z) (ff : float → float → float)
    (a b : PyNum) : Res PyNum :=
  match a, b with
  | PyInt x, PyInt y => Ok (PyInt (fz x y))
  | PyInt x, PyFloat y => x' ← float_of_int x; Ok (PyFloat (ff x' y))
  | PyFloat x, PyInt y => y' ← float_of_int y; Ok (PyFloat (ff x y'))
  | PyFloat x, PyFloat y => Ok (PyFloat (ff x y))
  end.

Definition py_add : PyNum → PyNum → Res PyNum := py_arith Z.add PrimFloat.add.
Definition py_sub : PyNum → PyNum → Res PyNum := py_arith Z.sub PrimFloat.sub.
Definition py_mul : PyNum → PyNum → Res PyNum := py_arith Z.mul PrimFloat.mul.

(** ** Formatted text *)

Inductive Piece : Type :=
| Lit (s : string)        (* literal text, or a [str] hole *)
| Fixed1 (f : float)      (* a [{x:.1f}] hole *)
| Dec (z : Z)             (* an int hole *)
| Repr (f : float).       (* a float hole without format spec *)

Definition Text : Type := list Piece.

(** [f"{x:.1f}"]: ints are converted to float first, [None] has no such
    format. *)
Definition format_1f (x : option PyNum) : Res Piece :=
  match x with
  | None => Raise TypeError
  | Some (PyInt z) => f ← float_of_int z; Ok (Fixed1 f)
  | Some (PyFloat f) => Ok (Fixed1 f)
  end.

(** [f"{x}"] for a number. *)
Definition format_num (x : PyNum) : Piece :=
  match x with
  | PyInt z => Dec z
  | PyFloat f => Repr f
  end.

(** [s.startswith(p)] *)
Definition startswith (s p : string) : bool := String.prefix p s.

(** [s.split(c)] for a one-character separator: never the empty list. *)
Fixpoint split (c : ascii) (s : string) : list string :=
  match s with
  | EmptyString => [EmptyString]
  | String a s' =>
      if Ascii.eqb a c then EmptyString :: split c s'
      else match split c s' with
           | h :: t => String a h :: t
           | [] => [String a EmptyString]
           end
  end.

(** [l[-1]] *)
Definition last_item {A} (l : list A) : Res A :=
  match last l with
  | Some x => Ok x
  | None => Raise IndexError
  end.

(** ** Data model *)

Module Device.
(** [class Device] *)
Record t : Type := mk {
  id : string;
  name : string;
  type : string;                 (* "light", "door", "thermostat", "fan" *)
  is_on : bool;                  (* for on/off devices *)
  slider_value : option PyNum    (* for slider devices; [None] when absent *)
}.

Definition set_is_on (b : bool) (d : t) : t :=
  mk (id d) (name d) (type d) b (slider_value d).

Definition set_slider_value (v : option PyNum) (d : t) : t :=
  mk (id d) (name d) (type d) (is_on d) v.
End Device.

Module Entry.
(** One dict of [action_log]. *)
Record t : Type := mk {
  time : string;
  device : string;
  action : Text;
  user : string
}.
End Entry.

(** The four device objects of [main]; the dictionary [devices] holds
    references to these same objects. *)
Inductive DevRef : Type := Light | Door | Thermostat | Fan.

(** The widgets one overview view owns and its handlers write to. *)
Record OverviewWidgets : Type := {
  light_status : Text;
  light_button : string;
  door_status : Text;
  door_button : string;
  thermo_value_text : Text;
  fan_value_text : Text
}.

(** What a device-details view shows. *)
Record DetailsWidgets : Type := {
  details_route : string;
  details_name : string;
  details_id : string;
  details_type : string;
  state_str : Text;
  recent_controls : list Text
}.

(** [ft.View]: the statistics view shows the shared [power_text] and
    [log_table], which stay in the program state. *)
Inductive View : Type :=
| OverviewView (w : OverviewWidgets)
| StatisticsView
| DeviceDetailsView (w : DetailsWidgets).

Definition view_route (v : View) : string :=
  match v with
  | OverviewView _ => "/"
  | StatisticsView => "/statistics"
  | DeviceDetailsView w => details_route w
  end.

Record State : Type := {
  light : Device.t;
  door : Device.t;
  thermostat : Device.t;
  fan : Device.t;
  devices : gmap string DevRef;
  action_log : list Entry.t;
  power_text : Text;               (* power_text.value *)
  log_table_rows : list Entry.t;   (* log_table.rows, one row per entry *)
  page_route : string;             (* page.route *)
  page_views : list View           (* page.views *)
}.

Definition deref (s : State) (r : DevRef) : Device.t :=
  match r with
  | Light => light s
  | Door => door s
  | Thermostat => thermostat s
  | Fan => fan s
  end.

Definition set_device (r : DevRef) (f : Device.t → Device.t) (s : State) : State :=
  {| light := (if r is Light then f else id) (light s);
     door := (if r is Door then f else id) (door s);
     thermostat := (if r is Thermostat then f else id) (thermostat s);
     fan := (if r is Fan then f else id) (fan s);
     devices := devices s;
     action_log := action_log s;
     power_text := power_text s;
     log_table_rows := log_table_rows s;
     page_route := page_route s;
     page_views := page_views s |}.

Definition set_action_log (l : list Entry.t) (s : State) : State :=
  {| light := light s; door := door s; thermostat := thermostat s;
     fan := fan s; devices := devices s;
     action_log := l;
     power_text := power_text s;
     log_table_rows := log_table_rows s;
     page_route := page_route s;
     page_views := page_views s |}.

Definition set_power_text (x : Text) (s : State) : State :=
  {| light := light s; door := door s; thermostat := thermostat s;
     fan := fan s; devices := devices s;
     action_log := action_log s;
     power_text := x;
     log_table_rows := log_table_rows s;
     page_route := page_route s;
     page_views := page_views s |}.

Definition set_log_table_rows (l : list Entry.t) (s : State) : State :=
  {| light := light s; door := door s; thermostat := thermostat s;
     fan := fan s; devices := devices s;
     action_log := action_log s;
     power_text := power_text s;
     log_table_rows := l;
     page_route := page_route s;
     page_views := page_views s |}.

Definition set_page_route (r : string) (s : State) : State :=
  {| light := light s; door := door s; thermostat := thermostat s;
     fan := fan s; devices := devices s;
     action_log := action_log s;
     power_text := power_text s;
     log_table_rows := log_table_rows s;
     page_route := r;
     page_views := page_views s |}.

Definition set_page_views (l : list View) (s : State) : State :=
  {| light := light s; door := door s; thermostat := thermostat s;
     fan := fan s; devices := devices s;
     action_log := action_log s;
     power_text := power_text s;
     log_table_rows := log_table_rows s;
     page_route := page_route s;
     page_views := l |}.

(** ** The monad of the closures of [main]

    A computation runs on the state and yields a value or a raised
    exception together with the state it leaves behind: what was written
    before a [raise] stays written. *)

Definition M (A : Type) : Type := State → Res A * State.

#[export] Instance M_ret : MRet M := λ A a s, (Ok a, s).
#[export] Instance M_bind : MBind M := λ A B k m s,
  match m s with
  | (Ok a, s') => k a s'
  | (Raise e, s') => (Raise e, s')
  end.

Definition get : M State := λ s, (Ok s, s).
Definition modify (f : State → State) : M unit := λ s, (Ok tt, f s).
Definition lift {A} (r : Res A) : M A := λ s, (r, s).

(** The state a computation leaves, and its outcome. *)
Definition exec {A} (m : M A) (s : State) : State := (m s).2.
Definition eval {A} (m : M A) (s : State) : Res A := (m s).1.

(** ** [main]: the seeded objects *)

Definition light0 : Device.t :=
  Device.mk "light1" "Living Room Light" "light" false None.
Definition door0 : Device.t :=
  Device.mk "door1" "Front Door" "door" true None.   (* True = locked *)
Definition thermostat0 : Device.t :=
  Device.mk "thermo1" "Thermostat" "thermostat" false (Some (PyInt 22)).
Definition fan0 : Device.t :=
  Device.mk "fan1" "Ceiling Fan" "fan" false (Some (PyInt 0)).

(** The state in which [main] has created its objects and widgets and has
    not yet navigated anywhere.  [devices] is the dict comprehension
    [{d.id: d for d in [light, door, thermostat, fan]}]. *)
Definition seed : State :=
  {| light := light0; door := door0; thermostat := thermostat0; fan := fan0;
     devices :=
       foldl (λ m p, <[Device.id p.1 := p.2]> m) ∅
         [(light0, Light); (door0, Door);
          (thermostat0, Thermostat); (fan0, Fan)];
     action_log := [];
     power_text := [Lit ""];
     log_table_rows := [];
     page_route := "/";
     page_views := [] |}.

(** ** Helper functions of [main] *)

(** [current_power_watts]: very simple simulated power consumption. *)
Definition current_power_watts : M PyNum :=
  s ← get;
  let power := PyInt 0 in
  power ← (if Device.is_on (light s)
           then lift (py_add power (PyInt 10))
           else mret power);
  (* door doesn't consume power in this simple model *)
  power ← match Device.slider_value (thermostat s) with
          | Some v =>
              (* base 80W + 5W per degree above 20 *)
              d ← lift (py_sub v (PyInt 20));
              x ← lift (py_mul (py_max (PyInt 0) d) (PyInt 5));
              y ← lift (py_add (PyInt 80) x);
              lift (py_add power y)
          | None => mret power
          end;
  power ← match Device.slider_value (fan s) with
          | Some v =>
              x ← lift (py_mul v (PyInt 30));
              lift (py_add power x)
          | None => mret power
          end;
  mret power.

Definition update_power_text : M unit :=
  p ← current_power_watts;
  modify (set_power_text
            [Lit "Current simulated power: "; format_num p; Lit " W"]).

(** [log_action(device, action, user)] when the clock reads [t]. *)
Definition log_action (t : string) (device : DevRef) (action : Text)
    (user : string) : M unit :=
  s ← get;
  modify (set_action_log
            (action_log s ++ [Entry.mk t (Device.id (deref s device)) action user]));;
  (* keep last 50 rows only *)
  s ← get;
  (if 50 <? length (action_log s)
   then modify (set_action_log
                  (drop (length (action_log s) - 50) (action_log s)))
   else mret tt);;
  (* update table UI: latest first *)
  s ← get;
  modify (set_log_table_rows (rev (action_log s))).

(** Writes to the widgets of the overview view that owns the running
    handler.  [route_change] keeps at most one view on the page, so that view
    is the overview in [page.views]; a handler of a view that has left the
    page writes to widgets nothing shows any more. *)
Definition update_overview (f : OverviewWidgets → OverviewWidgets) : M unit :=
  modify (λ s,
    set_page_views
      (map (λ v, match v with
                 | OverviewView w => OverviewView (f w)
                 | _ => v
                 end) (page_views s)) s).

(** ** Handlers of the overview view *)

Definition toggle_light (t : string) : M unit :=
  modify (set_device Light (λ d, Device.set_is_on (negb (Device.is_on d)) d));;
  s ← get;
  let on := Device.is_on (light s) in
  let action := if on then "Turn ON" else "Turn OFF" in
  update_overview (λ w,
    {| light_status := [Lit "Status: "; Lit (if on then "ON" else "OFF")];
       light_button := if on then "Turn OFF" else "Turn ON";
       door_status := door_status w;
       door_button := door_button w;
       thermo_value_text := thermo_value_text w;
       fan_value_text := fan_value_text w |});;
  log_action t Light [Lit action] "User";;
  update_power_text.

Definition toggle_door (t : string) : M unit :=
  modify (set_device Door (λ d, Device.set_is_on (negb (Device.is_on d)) d));;
  s ← get;
  let on := Device.is_on (door s) in
  let action := if on then "Lock" else "Unlock" in
  update_overview (λ w,
    {| light_status := light_status w;
       light_button := light_button w;
       door_status := [Lit "Door: "; Lit (if on then "LOCKED" else "UNLOCKED")];
       door_button := if on then "Unlock" else "Lock";
       thermo_value_text := thermo_value_text w;
       fan_value_text := fan_value_text w |});;
  log_action t Door [Lit action] "User";;
  update_power_text.

(** [thermo_changed(e)] with [e.control.value = v]. *)
Definition thermo_changed (v : float) (t : string) : M unit :=
  modify (set_device Thermostat (Device.set_slider_value (Some (PyFloat v))));;
  s ← get;
  p ← lift (format_1f (Device.slider_value (thermostat s)));
  update_overview (λ w,
    {| light_status := light_status w;
       light_button := light_button w;
       door_status := door_status w;
       door_button := door_button w;
       thermo_value_text := [Lit "Set point: "; p; Lit " 째C"];
       fan_value_text := fan_value_text w |});;
  s ← get;
  p ← lift (format_1f (Device.slider_value (thermostat s)));
  log_action t Thermostat [Lit "Set to "; p; Lit " 째C"] "User";;
  update_power_text.

(** [fan_changed(e)] with [e.control.value = v]. *)
Definition fan_changed (v : float) (t : string) : M unit :=
  z ← lift (int_of_float v);
  modify (set_device Fan (Device.set_slider_value (Some (PyInt z))));;
  s ← get;
  z ← lift (py_int (Device.slider_value (fan s)));
  update_overview (λ w,
    {| light_status := light_status w;
       light_button := light_button w;
       door_status := door_status w;
       door_button := door_button w;
       thermo_value_text := thermo_value_text w;
       fan_value_text := [Lit "Fan speed: "; Dec z] |});;
  s ← get;
  z ← lift (py_int (Device.slider_value (fan s)));
  log_action t Fan [Lit "Set speed to "; Dec z] "User";;
  update_power_text.

(** ** Views *)

Definition build_overview_view : M View :=
  s ← get;
  let light_status :=
    [Lit "Status: "; Lit (if Device.is_on (light s) then "ON" else "OFF")] in
  let light_button :=
    if negb (Device.is_on (light s)) then "Turn ON" else "Turn OFF" in
  let door_status :=
    [Lit "Door: "; Lit (if Device.is_on (door s) then "LOCKED" else "UNLOCKED")] in
  let door_button := if Device.is_on (door s) then "Unlock" else "Lock" in
  p ← lift (format_1f (Device.slider_value (thermostat s)));
  let thermo_value_text := [Lit "Set point: "; p; Lit " 째C"] in
  z ← lift (py_int (Device.slider_value (fan s)));
  let fan_value_text := [Lit "Fan speed: "; Dec z] in
  mret (OverviewView
          {| light_status := light_status; light_button := light_button;
             door_status := door_status; door_button := door_button;
             thermo_value_text := thermo_value_text;
             fan_value_text := fan_value_text |}).

Definition build_statistics_view : M View :=
  update_power_text;;
  mret StatisticsView.

(** The selection of lines 415-417: the last few actions for one device,
    [[a for a in reversed(action_log) if a["device"] == id][0:10]]. *)
Definition recent_actions (log : list Entry.t) (id : string) : list Entry.t :=
  take 10 (List.filter (λ a, String.eqb (Entry.device a) id) (rev log)).

Definition build_device_details_view (device_id : string) : M View :=
  s ← get;
  r ← lift (match devices s !! device_id with
            | Some r => Ok r
            | None => Raise (KeyError device_id)
            end);
  let device := deref s r in
  (* state string *)
  state_str ←
    (if String.eqb (Device.type device) "light" then
       mret [Lit (if Device.is_on device then "ON" else "OFF")]
     else if String.eqb (Device.type device) "door" then
       mret [Lit (if Device.is_on device then "LOCKED" else "UNLOCKED")]
     else if String.eqb (Device.type device) "thermostat" then
       p ← lift (format_1f (Device.slider_value device));
       mret [p; Lit " 째C"]
     else if String.eqb (Device.type device) "fan" then
       z ← lift (py_int (Device.slider_value device));
       mret [Dec z]
     else mret [Lit "-"]);
  (* last few actions for this device *)
  let recent := recent_actions (action_log s) (Device.id device) in
  let recent_controls :=
    map (λ a, [Lit (Entry.time a); Lit " - "] ++ Entry.action a
              ++ [Lit " ("; Lit (Entry.user a); Lit ")"]) recent in
  let recent_controls :=
    match recent_controls with
    | [] => [[Lit "No actions yet."]]
    | _ => recent_controls
    end in
  mret (DeviceDetailsView
          {| details_route := "/device/" +:+ Device.id device;
             details_name := Device.name device;
             details_id := Device.id device;
             details_type := Device.type device;
             state_str := state_str;
             recent_controls := recent_controls |}).

(** ** Navigation callbacks *)

Definition views_append (v : View) : M unit :=
  modify (λ s, set_page_views (page_views s ++ [v]) s).

Definition route_change : M unit :=
  modify (set_page_views []);;
  s ← get;
  let route := page_route s in
  if String.eqb route "/" then
    v ← build_overview_view; views_append v
  else if String.eqb route "/statistics" then
    v ← build_statistics_view; views_append v
  else if startswith route "/device/" then
    device_id ← lift (last_item (split "/" route));
    s ← get;
    if bool_decide (is_Some (devices s !! device_id)) then
      v ← build_device_details_view device_id; views_append v
    else
      v ← build_overview_view; views_append v
  else mret tt.

Definition view_pop : M unit :=
  s ← get;
  match page_views s with
  | [] => lift (Raise IndexError)
  | _ => modify (set_page_views (removelast (page_views s)))
  end.

(** [page.go(route)]: the toolkit stores the route and calls the
    [on_route_change] callback. *)
Definition page_go (route : string) : M unit :=
  modify (set_page_route route);;
  route_change.

(** The last statement of [main]: start at overview. *)
Definition main : M unit := page_go "/".

Definition start : State := exec main seed.

(** ** Events of the running program *)

Inductive Event : Type :=
| ToggleLight (t : string)
| ToggleDoor (t : string)
| ThermoChanged (v : float) (t : string)
| FanChanged (v : float) (t : string)
| LogAction (t : string) (device : DevRef) (action : Text) (user : string)
| Go (route : string)
| ViewPop.

Definition handle (ev : Event) : M unit :=
  match ev with
  | ToggleLight t => toggle_light t
  | ToggleDoor t => toggle_door t
  | ThermoChanged v t => thermo_changed v t
  | FanChanged v t => fan_changed v t
  | LogAction t device action user => log_action t device action user
  | Go route => page_go route
  | ViewPop => view_pop
  end.

(** The event loop: an exception of a handler is reported and the loop goes
    on with the state the handler left. *)
Definition run (evs : list Event) (s : State) : State :=
  foldl (λ s ev, exec (handle ev) s) s evs.

(** What the sliders deliver.  The fan slider is built with [min=0],
    [max=3], [divisions=3]: a float whose integer part is one of 0..3.  The
    thermostat slider delivers a float; no handler depends on its range. *)
Definition fan_value_ok (v : float) : bool :=
  match int_of_float v with
  | Ok z => (0 <=? z)%Z && (z <=? 3)%Z
  | Raise _ => false
  end.

Definition well_typed (ev : Event) : bool :=
  match ev with
  | FanChanged v _ => fan_value_ok v
  | _ => true
  end.

(** States the program can be in: [start] and whatever well-typed events
    lead to. *)
Inductive reachable : State → Prop :=
| reachable_start : reachable start
| reachable_step s ev :
    reachable s → well_typed ev = true → reachable (exec (handle ev) s).

(** ** Predicates used in the statements *)

(** The thermostat holds the seeded int 22 or a float stored by
    [thermo_changed]; the fan holds an int speed of 0..3. *)
Definition thermo_ok (x : option PyNum) : bool :=
  match x with
  | Some (PyInt z) => (z =? 22)%Z
  | Some (PyFloat _) => true
  | None => false
  end.

Definition fan_ok (x : option PyNum) : bool :=
  match x with
  | Some (PyInt z) => (0 <=? z)%Z && (z <=? 3)%Z
  | _ => false
  end.

(** The registry is the seeded one: same dictionary, same id and type on
    each of the four objects. *)
Definition same_registry (s s' : State) : Prop :=
  devices s' = devices s ∧
  ∀ r, Device.id (deref s' r) = Device.id (deref s r) ∧
       Device.type (deref s' r) = Device.type (deref s r).

Definition wf (s : State) : Prop :=
  same_registry seed s ∧
  thermo_ok (Device.slider_value (thermostat s)) = true ∧
  fan_ok (Device.slider_value (fan s)) = true.

Definition four_ids : gset string := {[ "light1"; "door1"; "thermo1"; "fan1" ]}.

(** The state that has the four device objects of [s] and everything else
    from [other]. *)
Definition graft (s other : State) : State :=
  {| light := light s; door := door s; thermostat := thermostat s;
     fan := fan s;
     devices := devices other;
     action_log := action_log other;
     power_text := power_text other;
     log_table_rows := log_table_rows other;
     page_route := page_route other;
     page_views := page_views other |}.

(** One call [log_action(device, action, user)] at clock reading [t]. *)
Definition Call : Type := string * DevRef * Text * string.

Definition call_entry (s : State) (c : Call) : Entry.t :=
  let '(t, d, a, u) := c in Entry.mk t (Device.id (deref s d)) a u.

Definition log_calls (cs : list Call) (s : State) : State :=
  foldl (λ s c, let '(t, d, a, u) := c in exec (log_action t d a u) s) s cs.

(** The last [n] elements of a list, in order. *)
Definition last_n {A} (n : nat) (l : list A) : list A :=
  drop (length l - n) l.


(** The entries the two handlers append. *)
Definition light_entry (t : string) (s : State) (on : bool) : Entry.t :=
  Entry.mk t (Device.id (light s))
    [Lit (if on then "Turn ON" else "Turn OFF")] "User".

Definition door_entry (t : string) (s : State) (on : bool) : Entry.t :=
  Entry.mk t (Device.id (door s))
    [Lit (if on then "Lock" else "Unlock")] "User".

(** [frame R m]: whatever [m] does, returning or raising, it leaves a state
    related by [R] to the one it started in. *)
Definition frame (R : relation State) {A} (m : M A) : Prop :=
  ∀ s, R s (exec m s).

(** [keeps_wf s s']: [s'] is well formed if [s] was. *)
Definition keeps_wf (s s' : State) : Prop := wf s → wf s'.

Definition same_log (s s' : State) : Prop := action_log s' = action_log s.

(** * Running the monad *)

Lemma bind_run {A B} (m : M A) (k : A → M B) s :
  (m ≫= k) s =
    match m s with
    | (Ok a, s') => k a s'
    | (Raise e, s') => (Raise e, s')
    end.
Proof. reflexivity. Qed.

Lemma exec_bind {A B} (m : M A) (k : A → M B) s :
  exec (m ≫= k) s =
    match m s with
    | (Ok a, s') => exec (k a) s'
    | (Raise e, s') => s'
    end.
Proof. unfold exec. rewrite bind_run. by destruct (m s) as [[a|e] s']. Qed.

(** * Frames: what a computation leaves related to the state it started in,
    whether it returns or raises *)

Section Frame.
Context (R : relation State) `{!PreOrder R}.

Lemma frame_ret {A} (a : A) : frame R (mret a).
Proof. intros s. reflexivity. Qed.

Lemma frame_lift {A} (r : Res A) : frame R (lift r).
Proof. intros s. reflexivity. Qed.

Lemma frame_get : frame R get.
Proof. intros s. reflexivity. Qed.

Lemma frame_modify f : (∀ s, R s (f s)) → frame R (modify f).
Proof. intros H s. apply H. Qed.

Lemma frame_bind {A B} (m : M A) (k : A → M B) :
  frame R m → (∀ a, frame R (k a)) → frame R (m ≫= k).
Proof.
  intros Hm Hk s. rewrite exec_bind.
  specialize (Hm s). unfold exec in Hm.
  destruct (m s) as [[a|e] s']; simpl in Hm; [|done].
  etrans; [exact Hm | apply Hk].
Qed.

Lemma frame_bind_lift {A B} (r : Res A) (k : A → M B) :
  (∀ a, r = Ok a → frame R (k a)) → frame R (lift r ≫= k).
Proof.
  intros Hk s. rewrite exec_bind. unfold lift.
  destruct r as [a|e]; [by apply Hk | reflexivity].
Qed.

Hypothesis R_power_text : ∀ x s, R s (set_power_text x s).
Hypothesis R_action_log : ∀ l s, R s (set_action_log l s).
Hypothesis R_log_table_rows : ∀ l s, R s (set_log_table_rows l s).
Hypothesis R_page_route : ∀ r s, R s (set_page_route r s).
Hypothesis R_page_views : ∀ l s, R s (set_page_views l s).
Hypothesis R_is_on : ∀ r g s,
  R s (set_device r (λ d, Device.set_is_on (g d) d) s).
Hypothesis R_thermostat : ∀ v s,
  R s (set_device Thermostat (Device.set_slider_value (Some (PyFloat v))) s).

Ltac frame_step :=
  lazymatch goal with
  | |- frame _ (mret _) => apply frame_ret
  | |- frame _ (lift _) => apply frame_lift
  | |- frame _ get => apply frame_get
  | |- frame _ (modify _) => apply frame_modify; intros ?
  | |- frame _ (_ ≫= _) => apply frame_bind; [|intros ?]
  | |- frame _ (if ?b then _ else _) => destruct b
  | |- frame _ (match ?x with _ => _ end) => destruct x
  | |- frame _ _ => progress cbv zeta
  end.

Lemma frame_current_power_watts : frame R current_power_watts.
Proof. unfold current_power_watts. repeat frame_step. Qed.

Lemma frame_update_power_text : frame R update_power_text.
Proof.
  unfold update_power_text.
  apply frame_bind; [apply frame_current_power_watts|intros p].
  apply frame_modify; auto.
Qed.

Lemma frame_log_action t d a u : frame R (log_action t d a u).
Proof. unfold log_action. repeat frame_step; auto. Qed.

Lemma frame_update_overview f : frame R (update_overview f).
Proof. unfold update_overview. repeat frame_step; auto. Qed.

Lemma frame_toggle_light t : frame R (toggle_light t).
Proof.
  unfold toggle_light.
  repeat first [ apply frame_update_overview | apply frame_log_action
               | apply frame_update_power_text | frame_step ]; auto.
Qed.

Lemma frame_toggle_door t : frame R (toggle_door t).
Proof.
  unfold toggle_door.
  repeat first [ apply frame_update_overview | apply frame_log_action
               | apply frame_update_power_text | frame_step ]; auto.
Qed.

Lemma frame_thermo_changed v t : frame R (thermo_changed v t).
Proof.
  unfold thermo_changed.
  repeat first [ apply frame_update_overview | apply frame_log_action
               | apply frame_update_power_text | frame_step ]; auto.
Qed.

Lemma frame_fan_changed v t :
  (∀ z s, int_of_float v = Ok z →
          R s (set_device Fan (Device.set_slider_value (Some (PyInt z))) s)) →
  frame R (fan_changed v t).
Proof.
  intros Hfan. unfold fan_changed.
  apply frame_bind_lift; intros z Hz.
  repeat first [ apply frame_update_overview | apply frame_log_action
               | apply frame_update_power_text | frame_step ]; auto.
Qed.

Lemma frame_build_overview_view : frame R build_overview_view.
Proof. unfold build_overview_view. repeat frame_step. Qed.

Lemma frame_build_statistics_view : frame R build_statistics_view.
Proof.
  unfold build_statistics_view.
  apply frame_bind; [apply frame_update_power_text|intros; apply frame_ret].
Qed.

Lemma frame_build_device_details_view i : frame R (build_device_details_view i).
Proof. unfold build_device_details_view. repeat frame_step. Qed.

Lemma frame_route_change : frame R route_change.
Proof.
  unfold route_change, views_append.
  repeat first [ apply frame_build_overview_view
               | apply frame_build_statistics_view
               | apply frame_build_device_details_view
               | frame_step ]; auto.
Qed.

Lemma frame_page_go route : frame R (page_go route).
Proof.
  unfold page_go. apply frame_bind; [|intros; apply frame_route_change].
  apply frame_modify; auto.
Qed.

Lemma frame_view_pop : frame R view_pop.
Proof. unfold view_pop. repeat frame_step; auto. Qed.

Lemma frame_handle ev :
  (∀ v t z s, ev = FanChanged v t → int_of_float v = Ok z →
     R s (set_device Fan (Device.set_slider_value (Some (PyInt z))) s)) →
  frame R (handle ev).
Proof.
  intros Hfan. destruct ev; simpl.
  - apply frame_toggle_light.
  - apply frame_toggle_door.
  - apply frame_thermo_changed.
  - apply frame_fan_changed. eauto.
  - apply frame_log_action.
  - apply frame_page_go.
  - apply frame_view_pop.
Qed.
End Frame.

(** * The relations the frames are used with *)

#[local] Instance same_registry_preorder : PreOrder same_registry.
Proof.
  split.
  - intros s. by split.
  - intros s1 s2 s3 [Hd Hr] [Hd' Hr']. split; [congruence|].
    intros r. destruct (Hr r), (Hr' r). split; congruence.
Qed.

#[local] Instance keeps_wf_preorder : PreOrder keeps_wf.
Proof. split; unfold keeps_wf; [intros s | intros s1 s2 s3]; tauto. Qed.

#[local] Instance same_log_preorder : PreOrder same_log.
Proof. split; unfold same_log; [intros s | intros s1 s2 s3 ? ?]; congruence. Qed.

Lemma same_registry_set_device r f s :
  (∀ d, Device.id (f d) = Device.id d ∧ Device.type (f d) = Device.type d) →
  same_registry s (set_device r f s).
Proof.
  intros Hf. split; [done|]. intros r'.
  destruct r, r'; simpl; auto.
Qed.

Lemma same_registry_handle ev : frame same_registry (handle ev).
Proof.
  apply frame_handle; try apply _; try (intros; by split);
    intros; by apply same_registry_set_device.
Qed.

Lemma wf_set_device r f s :
  (∀ d, Device.id (f d) = Device.id d ∧ Device.type (f d) = Device.type d) →
  thermo_ok (Device.slider_value
               (thermostat (set_device r f s))) = true →
  fan_ok (Device.slider_value (fan (set_device r f s))) = true →
  keeps_wf s (set_device r f s).
Proof.
  intros Hf Ht Hfan [Hreg _]. split; [|done].
  etrans; [exact Hreg | by apply same_registry_set_device].
Qed.

Lemma keeps_wf_handle ev :
  well_typed ev = true → frame keeps_wf (handle ev).
Proof.
  intros Hev.
  apply frame_handle; try apply _; try (intros ? s Hs; exact Hs).
  - intros r g s Hs. apply wf_set_device; [done| | |done];
      destruct Hs as (_ & ? & ?), r; done.
  - intros v s Hs. apply wf_set_device; [done| | |done];
      destruct Hs as (_ & ? & ?); done.
  - intros v t z s -> Hz Hs. apply wf_set_device; [done| | |done].
    + destruct Hs as (_ & ? & ?); done.
    + simpl in *. unfold fan_value_ok in Hev. by rewrite Hz in Hev.
Qed.

Lemma devices_seed :
  devices seed =
    <["fan1" := Fan]> (<["thermo1" := Thermostat]>
      (<["door1" := Door]> (<["light1" := Light]> ∅))).
Proof. reflexivity. Qed.

Lemma dom_devices_seed : dom (devices seed) = four_ids.
Proof.
  rewrite devices_seed, !dom_insert_L, dom_empty_L.
  unfold four_ids. set_solver.
Qed.

Lemma devices_seed_lookup i r :
  devices seed !! i = Some r → i = Device.id (deref seed r).
Proof.
  rewrite devices_seed, !lookup_insert, lookup_empty.
  repeat case_decide; intros ?; by simplify_eq.
Qed.

Lemma wf_start : wf start.
Proof. split; [split|]; [reflexivity|by intros []|split; reflexivity]. Qed.

Lemma reachable_wf s : reachable s → wf s.
Proof.
  induction 1 as [|s ev _ IH Hev]; [apply wf_start|].
  by apply (keeps_wf_handle ev Hev s).
Qed.

Lemma run_snoc evs ev s : run (evs ++ [ev]) s = exec (handle ev) (run evs s).
Proof. unfold run. by rewrite foldl_app. Qed.

Lemma same_registry_run evs s : same_registry s (run evs s).
Proof.
  induction evs as [|ev evs IH] using rev_ind; [reflexivity|].
  rewrite run_snoc. etrans; [exact IH | apply same_registry_handle].
Qed.

(** * Python arithmetic *)

Lemma py_max_int x y : py_max (PyInt x) (PyInt y) = PyInt (Z.max x y).
Proof.
  unfold py_max, py_gt. destruct (Z.ltb_spec x y).
  - by rewrite Z.max_r by lia.
  - by rewrite Z.max_l by lia.
Qed.

Lemma py_arith_float_int fz ff x y :
  is_ok (float_of_int y) = true →
  ∃ r, py_arith fz ff (PyFloat x) (PyInt y) = Ok (PyFloat r).
Proof. simpl. destruct (float_of_int y); [eauto|done]. Qed.

(** * The power estimate *)

Lemma current_power_watts_exec s : exec current_power_watts s = s.
Proof. symmetry. apply (frame_current_power_watts eq). Qed.

Lemma current_power_watts_int s a b :
  Device.slider_value (thermostat s) = Some (PyInt a) →
  Device.slider_value (fan s) = Some (PyInt b) →
  current_power_watts s =
    (Ok (PyInt ((if Device.is_on (light s) then 10 else 0) + 0
                + (80 + Z.max 0 (a - 20) * 5) + b * 30)), s).
Proof.
  intros Ht Hf. unfold current_power_watts.
  cbv [mbind M_bind get lift mret M_ret]. rewrite Ht, Hf.
  unfold py_sub, py_mul, py_add. cbn [py_arith]. rewrite py_max_int.
  destruct (Device.is_on (light s)); cbn [py_arith]; repeat f_equal; lia.
Qed.

Lemma current_power_watts_float s f z :
  Device.slider_value (thermostat s) = Some (PyFloat f) →
  Device.slider_value (fan s) = Some (PyInt z) →
  (0 ≤ z ≤ 3)%Z →
  ∃ p, current_power_watts s = (Ok p, s).
Proof.
  intros Ht Hf Hz. unfold current_power_watts.
  cbv [mbind M_bind get lift mret M_ret]. rewrite Ht, Hf.
  assert (Hz' : (z = 0 ∨ z = 1 ∨ z = 2 ∨ z = 3)%Z) by lia.
  unfold py_sub, py_mul, py_add, py_max.
  destruct (py_arith_float_int Z.sub PrimFloat.sub f 20 eq_refl) as [d ->].
  destruct (Device.is_on (light s)), (py_gt (PyFloat d) (PyInt 0));
    decompose [or] Hz'; subst z; cbn; eauto.
Qed.

Lemma current_power_watts_ok s :
  thermo_ok (Device.slider_value (thermostat s)) = true →
  fan_ok (Device.slider_value (fan s)) = true →
  ∃ p, current_power_watts s = (Ok p, s).
Proof.
  intros Ht Hf.
  destruct (Device.slider_value (fan s)) as [[z|]|] eqn:Ez; try done.
  destruct (Device.slider_value (thermostat s)) as [[a|f]|] eqn:Ea; try done.
  - erewrite current_power_watts_int by done. eauto.
  - eapply current_power_watts_float; [done..|]. simpl in Hf. lia.
Qed.

Lemma update_power_text_ok s :
  thermo_ok (Device.slider_value (thermostat s)) = true →
  fan_ok (Device.slider_value (fan s)) = true →
  ∃ x, update_power_text s = (Ok tt, set_power_text x s).
Proof.
  intros Ht Hf. destruct (current_power_watts_ok s Ht Hf) as [p Hp].
  unfold update_power_text. rewrite bind_run, Hp. eauto.
Qed.

Lemma update_power_text_exec s :
  ∃ x, exec update_power_text s = set_power_text x s.
Proof.
  unfold update_power_text. rewrite exec_bind.
  pose proof (current_power_watts_exec s) as Hs. unfold exec in Hs.
  destruct (current_power_watts s) as [[p|e] s']; simpl in Hs; subst s'.
  - eauto.
  - exists (power_text s). by destruct s.
Qed.

(** C1: evaluated after the thermostat slider delivered 23.0, the estimate
    is the float 95.0, not an int; with the light off, thermostat 23 and fan
    0 the formula gives the int 95.  Whenever both slider values are ints
    the result is the int of the formula (lemma [current_power_watts_int]). *)
Theorem current_power_watts_after_thermo_changed :
  let s := exec (thermo_changed 23 "12:00:00") start in
  Device.slider_value (thermostat s) = Some (PyFloat 23) ∧
  Device.slider_value (fan s) = Some (PyInt 0) ∧
  eval current_power_watts s = Ok (PyFloat 95) ∧
  eval current_power_watts s ≠ Ok (PyInt (0 + 0 + (80 + Z.max 0 (23 - 20) * 5) + 0 * 30)) ∧
  power_text s = [Lit "Current simulated power: "; Repr 95; Lit " W"].
Proof. vm_compute. repeat split; congruence. Qed.

(** C5: the seeded state is light off, door locked, thermostat 22, fan 0 and
    its estimate is 90 W; after toggling the light it is 100 W; after then
    setting the fan speed to 3 it is 190 W. *)
Theorem seeded_power_estimates (t1 t2 : string) :
  Device.is_on (light start) = false ∧
  Device.is_on (door start) = true ∧
  Device.slider_value (thermostat start) = Some (PyInt 22) ∧
  Device.slider_value (fan start) = Some (PyInt 0) ∧
  eval current_power_watts start = Ok (PyInt 90) ∧
  eval current_power_watts (run [ToggleLight t1] start) = Ok (PyInt 100) ∧
  eval current_power_watts (run [ToggleLight t1; FanChanged 3 t2] start)
    = Ok (PyInt 190).
Proof. vm_compute. repeat split. Qed.

Lemma current_power_watts_ext s1 s2 :
  light s1 = light s2 → thermostat s1 = thermostat s2 → fan s1 = fan s2 →
  eval current_power_watts s1 = eval current_power_watts s2.
Proof.
  intros Hl Ht Hf. unfold eval, current_power_watts.
  cbv [mbind M_bind get lift mret M_ret]. rewrite Hl, Ht, Hf.
  destruct (Device.is_on (light s2)),
    (Device.slider_value (thermostat s2)) as [v|],
    (Device.slider_value (fan s2)) as [w|]; simpl;
    repeat match goal with
           | |- context [match ?x with Ok _ => _ | Raise _ => _ end] =>
               destruct x; simpl
           end; reflexivity.
Qed.

Lemma current_power_watts_graft s other :
  eval current_power_watts s = eval current_power_watts (graft s other).
Proof. by apply current_power_watts_ext. Qed.

(** C6: [current_power_watts] leaves the whole state (device records, action
    log, widgets) as it found it, and its result is the same in any two
    states that agree on the four device objects. *)
Theorem current_power_watts_pure (s other : State) :
  exec current_power_watts s = s ∧
  eval current_power_watts s = eval current_power_watts (graft s other).
Proof. split; [apply current_power_watts_exec | apply current_power_watts_graft]. Qed.

(** * The action log *)

Lemma log_action_run t d a u s :
  log_action t d a u s =
    (Ok tt,
     let kept := last_n 50 (action_log s ++ [call_entry s (t, d, a, u)]) in
     set_log_table_rows (rev kept) (set_action_log kept s)).
Proof.
  unfold log_action, last_n, call_entry.
  cbv [mbind M_bind get lift mret M_ret modify].
  cbn [action_log set_action_log].
  set (all := action_log s ++ _).
  destruct (Nat.ltb_spec 50 (length all)) as [H|H]; cbn.
  - reflexivity.
  - replace (length all - 50) with 0 by lia. reflexivity.
Qed.

Lemma length_last_n {A} n (l : list A) : length (last_n n l) ≤ n.
Proof. unfold last_n. rewrite length_drop. lia. Qed.

Lemma last_n_short {A} n (l : list A) : length l ≤ n → last_n n l = l.
Proof. intros H. unfold last_n. by replace (length l - n) with 0 by lia. Qed.

Lemma last_n_app {A} n (l l' : list A) :
  last_n n (last_n n l ++ l') = last_n n (l ++ l').
Proof.
  unfold last_n. set (k := length l - n).
  rewrite <- (drop_app_le l l' k) by (unfold k; lia).
  rewrite drop_drop, length_drop. f_equal.
  rewrite length_app. unfold k. lia.
Qed.

Lemma log_calls_log cs : ∀ s,
  length (action_log s) ≤ 50 →
  action_log (log_calls cs s)
  = last_n 50 (action_log s ++ map (call_entry s) cs).
Proof.
  induction cs as [|[[[t d] a] u] cs IH]; intros s Hs.
  - simpl. rewrite app_nil_r. by rewrite last_n_short.
  - change (log_calls (_ :: cs) s)
      with (log_calls cs (exec (log_action t d a u) s)).
    unfold exec. rewrite log_action_run. cbn [snd].
    rewrite IH by (cbn; apply length_last_n).
    cbn [action_log set_log_table_rows set_action_log].
    rewrite last_n_app, <- (assoc_L (++)). do 2 f_equal.
Qed.

(** C2: starting from a log within the cap, after every sequence of appends
    the log holds at most 50 entries and is exactly the last 50 of everything
    written, in insertion order; 51 appends to an empty log leave 50 entries,
    the first one dropped. *)
Theorem log_action_keeps_last_50 (s : State) (cs : list Call) :
  length (action_log s) ≤ 50 →
  let s' := log_calls cs s in
  let written := action_log s ++ map (call_entry s) cs in
  length (action_log s') ≤ 50 ∧
  action_log s' = last_n 50 written ∧
  log_table_rows (log_calls cs s) = match cs with
                                    | [] => log_table_rows s
                                    | _ => rev (action_log s')
                                    end ∧
  (action_log s = [] → length cs = 51 →
   length (action_log s') = 50 ∧
   action_log s' = tail (map (call_entry s) cs)).
Proof.
  intros Hs s' written.
  assert (Hlog : action_log s' = last_n 50 written) by by apply log_calls_log.
  split_and!.
  - rewrite Hlog. apply length_last_n.
  - exact Hlog.
  - destruct cs as [|c cs _] using rev_ind; [done|].
    replace (match cs ++ [c] with [] => _ | _ :: _ => rev (action_log s') end)
      with (rev (action_log s')) by by destruct cs.
    subst s'. unfold log_calls. rewrite foldl_app. simpl.
    destruct c as [[[t d] a] u]. unfold exec. by rewrite log_action_run.
  - intros Hnil Hlen. rewrite Hlog. subst written. rewrite Hnil. simpl.
    unfold last_n. rewrite length_map, Hlen. change (51 - 50) with 1.
    rewrite length_drop, length_map, Hlen.
    split; [done|]. by destruct (map (call_entry s) cs).
Qed.

(** * Recent actions of one device *)

(** C3: the selection for the device-details view has at most 10 entries,
    all of the asked device, and is the reverse of the last (up to) 10
    entries of that device in insertion order: newest first. *)
Theorem recent_actions_newest_first (log : list Entry.t) (id : string) :
  let matching := List.filter (λ a, String.eqb (Entry.device a) id) log in
  length (recent_actions log id) ≤ 10 ∧
  Forall (λ a, Entry.device a = id) (recent_actions log id) ∧
  recent_actions log id = rev (last_n 10 matching).
Proof.
  intros matching. unfold recent_actions. split_and!.
  - rewrite length_take. lia.
  - apply Forall_take, Forall_forall. intros a Ha.
    apply list_elem_of_In, filter_In in Ha as [_ Ha].
    by apply String.eqb_eq.
  - unfold last_n, matching. rewrite List.filter_rev.
    apply firstn_rev.
Qed.

(** * The registry *)

(** C7: in every state the program reaches, and after any further operation
    (a toggle, a slider change, a log append, a navigation, a view pop), the
    registry's keys are exactly the four seeded ids, and each of the four
    objects keeps its id and type. *)
Theorem registry_fixed (evs : list Event) (ev : Event) :
  let s := run evs start in
  let s' := exec (handle ev) s in
  dom (devices s) = four_ids ∧
  dom (devices s') = four_ids ∧
  ∀ r, Device.id (deref s' r) = Device.id (deref s r) ∧
       Device.type (deref s' r) = Device.type (deref s r) ∧
       Device.id (deref s r) = Device.id (deref seed r) ∧
       Device.type (deref s r) = Device.type (deref seed r).
Proof.
  intros s s'.
  assert (Hs : same_registry seed s).
  { etrans; [apply wf_start | apply same_registry_run]. }
  assert (Hs' : same_registry s s') by apply same_registry_handle.
  destruct Hs as [Hd Hr], Hs' as [Hd' Hr'].
  split_and!.
  - rewrite Hd. apply dom_devices_seed.
  - rewrite Hd', Hd. apply dom_devices_seed.
  - intros r. destruct (Hr r), (Hr' r). done.
Qed.

(** * Handlers *)

Ltac run_handler :=
  cbv [mbind M_bind get modify update_overview lift];
  rewrite ?log_action_run; cbv beta iota zeta.

Lemma toggle_light_fields t s :
  let s' := exec (toggle_light t) s in
  let on := negb (Device.is_on (light s)) in
  light s' = Device.set_is_on on (light s) ∧
  door s' = door s ∧ thermostat s' = thermostat s ∧ fan s' = fan s ∧
  action_log s' = last_n 50 (action_log s ++ [light_entry t s on]).
Proof.
  unfold exec, toggle_light. run_handler.
  match goal with
  | |- context [update_power_text ?S] =>
      destruct (update_power_text_exec S) as [x Hx]
  end.
  unfold exec in Hx. rewrite Hx. done.
Qed.

Lemma toggle_door_fields t s :
  let s' := exec (toggle_door t) s in
  let on := negb (Device.is_on (door s)) in
  door s' = Device.set_is_on on (door s) ∧
  light s' = light s ∧ thermostat s' = thermostat s ∧ fan s' = fan s ∧
  action_log s' = last_n 50 (action_log s ++ [door_entry t s on]).
Proof.
  unfold exec, toggle_door. run_handler.
  match goal with
  | |- context [update_power_text ?S] =>
      destruct (update_power_text_exec S) as [x Hx]
  end.
  unfold exec in Hx. rewrite Hx. done.
Qed.

Lemma set_is_on_twice' (d : Device.t) :
  Device.set_is_on
    (negb (Device.is_on (Device.set_is_on (negb (Device.is_on d)) d)))
    (Device.set_is_on (negb (Device.is_on d)) d) = d.
Proof. by destruct d as [i n ty [] v]. Qed.

(** C9, as the code has it: toggling the light twice (likewise the door)
    restores the device's on/off field and the power estimate, and appends
    the two toggles' entries to the log, which is then cut to its last 50;
    the log is two entries longer when it held at most 48 before. *)
Theorem toggle_twice (s : State) (t1 t2 : string) :
  let l2 := exec (toggle_light t2) (exec (toggle_light t1) s) in
  let d2 := exec (toggle_door t2) (exec (toggle_door t1) s) in
  let on := Device.is_on (light s) in
  let locked := Device.is_on (door s) in
  (Device.is_on (light l2) = on ∧
   eval current_power_watts l2 = eval current_power_watts s ∧
   action_log l2
   = last_n 50 (action_log s
                ++ [light_entry t1 s (negb on); light_entry t2 s on]) ∧
   (length (action_log s) ≤ 48 →
    length (action_log l2) = length (action_log s) + 2)) ∧
  (Device.is_on (door d2) = locked ∧
   eval current_power_watts d2 = eval current_power_watts s ∧
   action_log d2
   = last_n 50 (action_log s
                ++ [door_entry t1 s (negb locked); door_entry t2 s locked]) ∧
   (length (action_log s) ≤ 48 →
    length (action_log d2) = length (action_log s) + 2)).
Proof.
  intros l2 d2 on locked. split.
  - destruct (toggle_light_fields t1 s) as (Hl & Hd & Ht & Hf & Hlog).
    destruct (toggle_light_fields t2 (exec (toggle_light t1) s))
      as (Hl' & Hd' & Ht' & Hf' & Hlog').
    fold l2 in Hl', Hd', Ht', Hf', Hlog'.
    assert (Hback : light l2 = light s).
    { rewrite Hl', Hl. apply set_is_on_twice'. }
    assert (Hlog2 : action_log l2
      = last_n 50 (action_log s
                   ++ [light_entry t1 s (negb on); light_entry t2 s on])).
    { rewrite Hlog', Hlog, last_n_app, <- (assoc_L (++)).
      unfold light_entry. rewrite Hl. simpl.
      fold on. by rewrite negb_involutive. }
    split_and!.
    + by rewrite Hback.
    + apply current_power_watts_ext; congruence.
    + exact Hlog2.
    + intros Hlen. rewrite Hlog2, last_n_short; rewrite length_app; simpl; lia.
  - destruct (toggle_door_fields t1 s) as (Hd & Hl & Ht & Hf & Hlog).
    destruct (toggle_door_fields t2 (exec (toggle_door t1) s))
      as (Hd' & Hl' & Ht' & Hf' & Hlog').
    fold d2 in Hl', Hd', Ht', Hf', Hlog'.
    assert (Hback : door d2 = door s).
    { rewrite Hd', Hd. apply set_is_on_twice'. }
    assert (Hlog2 : action_log d2
      = last_n 50 (action_log s
                   ++ [door_entry t1 s (negb locked); door_entry t2 s locked])).
    { rewrite Hlog', Hlog, last_n_app, <- (assoc_L (++)).
      unfold door_entry. rewrite Hd. simpl.
      fold locked. by rewrite negb_involutive. }
    split_and!.
    + by rewrite Hback.
    + apply current_power_watts_ext; congruence.
    + exact Hlog2.
    + intros Hlen. rewrite Hlog2, last_n_short; rewrite length_app; simpl; lia.
Qed.

(** C9 as stated fails once the log is full: after 50 toggles it holds 50
    entries, and two more toggles leave it at 50, not 52. *)
Lemma toggle_twice_full_log :
  let s := run (replicate 50 (ToggleLight "12:00:00")) start in
  let s2 := exec (toggle_light "12:00:02") (exec (toggle_light "12:00:01") s) in
  length (action_log s) = 50 ∧
  length (action_log s2) = 50 ∧
  length (action_log s2) ≠ length (action_log s) + 2.
Proof. vm_compute. split_and!; [done|done|lia]. Qed.

(** * The handlers never raise in a reachable state *)

Ltac finish_with_power_text :=
  match goal with
  | |- context [update_power_text ?S] =>
      let x := fresh "x" in
      let Hx := fresh "Hx" in
      destruct (update_power_text_ok S) as [x Hx];
      [assumption | assumption | rewrite Hx; reflexivity]
  end.

Lemma toggle_light_ok t s :
  thermo_ok (Device.slider_value (thermostat s)) = true →
  fan_ok (Device.slider_value (fan s)) = true →
  eval (toggle_light t) s = Ok tt.
Proof.
  intros Ht Hf. unfold eval, toggle_light. run_handler.
  finish_with_power_text.
Qed.

Lemma toggle_door_ok t s :
  thermo_ok (Device.slider_value (thermostat s)) = true →
  fan_ok (Device.slider_value (fan s)) = true →
  eval (toggle_door t) s = Ok tt.
Proof.
  intros Ht Hf. unfold eval, toggle_door. run_handler.
  finish_with_power_text.
Qed.

Lemma thermo_changed_ok v t s :
  fan_ok (Device.slider_value (fan s)) = true →
  eval (thermo_changed v t) s = Ok tt.
Proof.
  intros Hf. unfold eval, thermo_changed. run_handler.
  cbn [set_device set_page_views thermostat Device.set_slider_value
       Device.slider_value format_1f].
  rewrite log_action_run. cbv beta iota zeta.
  match goal with
  | |- context [update_power_text ?S] =>
      destruct (update_power_text_ok S) as [x Hx];
      [reflexivity | assumption | rewrite Hx; reflexivity]
  end.
Qed.

Lemma fan_value_ok_inv v :
  fan_value_ok v = true → ∃ z, int_of_float v = Ok z ∧ (0 ≤ z ≤ 3)%Z.
Proof.
  unfold fan_value_ok. destruct (int_of_float v) as [z|]; [|done].
  intros H. exists z. split; [done|lia].
Qed.

Lemma fan_changed_ok v t s :
  thermo_ok (Device.slider_value (thermostat s)) = true →
  fan_value_ok v = true →
  eval (fan_changed v t) s = Ok tt.
Proof.
  intros Ht Hv. destruct (fan_value_ok_inv v Hv) as (z & Hz & Hb).
  unfold eval, fan_changed. rewrite Hz. run_handler.
  cbn [set_device set_page_views fan Device.set_slider_value
       Device.slider_value py_int].
  rewrite log_action_run. cbv beta iota zeta.
  match goal with
  | |- context [update_power_text ?S] =>
      destruct (update_power_text_ok S) as [x Hx];
      [assumption | simpl; lia | rewrite Hx; reflexivity]
  end.
Qed.

(** C8: in every reachable state the four state-changing handlers return
    normally, for every clock reading, every float the thermostat slider
    delivers and every value the fan slider (0..3) delivers. *)
Theorem handlers_total (s : State) :
  reachable s →
  (∀ t, eval (toggle_light t) s = Ok tt) ∧
  (∀ t, eval (toggle_door t) s = Ok tt) ∧
  (∀ v t, eval (thermo_changed v t) s = Ok tt) ∧
  (∀ v t, fan_value_ok v = true → eval (fan_changed v t) s = Ok tt).
Proof.
  intros Hs. destruct (reachable_wf s Hs) as (_ & Ht & Hf).
  split_and!; intros.
  - by apply toggle_light_ok.
  - by apply toggle_door_ok.
  - by apply thermo_changed_ok.
  - by apply fan_changed_ok.
Qed.

(** * Navigation *)

(** C10: for a route that is not "/", not "/statistics" and does not start
    with "/device/", [route_change] returns normally and leaves the page with
    an empty view list; nothing else changes. *)
Theorem unknown_route_no_view (s : State) :
  page_route s ≠ "/" →
  page_route s ≠ "/statistics" →
  startswith (page_route s) "/device/" = false →
  route_change s = (Ok tt, set_page_views [] s).
Proof.
  intros H1 H2 H3. unfold route_change.
  cbv [mbind M_bind get modify]. cbn [page_route set_page_views].
  apply String.eqb_neq in H1, H2. by rewrite H1, H2, H3.
Qed.

(** * Device routes *)


Lemma split_nonempty c s : split c s ≠ [].
Proof.
  induction s as [|a s IH]; [done|]. simpl.
  destruct (Ascii.eqb a c); [done|]. by destruct (split c s).
Qed.


Lemma build_overview_view_ok s :
  thermo_ok (Device.slider_value (thermostat s)) = true →
  fan_ok (Device.slider_value (fan s)) = true →
  ∃ w, build_overview_view s = (Ok (OverviewView w), s).
Proof.
  intros Ht Hf. unfold build_overview_view.
  cbv [mbind M_bind get lift mret M_ret].
  destruct (Device.slider_value (thermostat s)) as [[z|f]|]; [| |done].
  - apply Z.eqb_eq in Ht as ->.
    destruct (Device.slider_value (fan s)) as [[z|f]|]; [|done|done].
    cbn. eauto.
  - destruct (Device.slider_value (fan s)) as [[z|f']|]; [|done|done].
    cbn. eauto.
Qed.

Lemma build_device_details_view_ok s i r :
  wf s → devices s !! i = Some r →
  ∃ w, build_device_details_view i s = (Ok (DeviceDetailsView w), s) ∧
       details_route w = "/device/" +:+ i ∧
       details_id w = i ∧
       details_name w = Device.name (deref s r) ∧
       details_type w = Device.type (deref s r).
Proof.
  intros ((Hd & Hr) & Ht & Hf) Hi.
  assert (Hid : Device.id (deref s r) = i).
  { destruct (Hr r) as [-> _]. symmetry. apply devices_seed_lookup.
    by rewrite <- Hd. }
  unfold build_device_details_view.
  cbv [mbind M_bind get lift mret M_ret]. rewrite Hi. cbv beta iota zeta.
  destruct (Hr r) as [_ Hty]. rewrite Hty, Hid.
  destruct r; cbn [deref seed light0 door0 thermostat0 fan0 Device.type
                   light door thermostat fan String.eqb Ascii.eqb Bool.eqb];
    cbv beta iota zeta.
  - eauto 10.
  - eauto 10.
  - cbn [deref] in *.
    destruct (Device.slider_value (thermostat s)) as [[z|f]|]; [| |done].
    + apply Z.eqb_eq in Ht as ->. cbn. eauto 10.
    + cbn. eauto 10.
  - cbn [deref] in *.
    destruct (Device.slider_value (fan s)) as [[z|f]|]; [|done|done].
    cbn. eauto 10.
Qed.






(** * The statements at concrete inputs *)

Lemma log_action_keeps_last_50_witness :
  let cs := replicate 51 ("12:00:00", Light, [Lit "Turn ON"], "User") in
  length (action_log start) ≤ 50 ∧
  length (action_log (log_calls cs start)) = 50 ∧
  action_log (log_calls cs start) = tail (map (call_entry start) cs).
Proof.
  intros cs.
  assert (H : length (action_log start) ≤ 50) by (vm_compute; lia).
  split; [exact H|].
  destruct (log_action_keeps_last_50 start cs H) as (_ & _ & _ & H51).
  apply H51; reflexivity.
Defined.


Lemma handlers_total_witness :
  reachable start ∧
  fan_value_ok 3 = true ∧
  eval (toggle_light "12:00:00") start = Ok tt ∧
  eval (fan_changed 3 "12:00:00") start = Ok tt.
Proof.
  assert (Hv : fan_value_ok 3 = true) by reflexivity.
  destruct (handlers_total start reachable_start) as (H1 & _ & _ & H4).
  split_and!; [apply reachable_start|exact Hv|apply H1|apply (H4 _ _ Hv)].
Defined.

Lemma toggle_twice_witness :
  let l2 := exec (toggle_light "12:00:05") (exec (toggle_light "12:00:00") start) in
  length (action_log start) ≤ 48 ∧
  length (action_log l2) = length (action_log start) + 2.
Proof.
  intros l2.
  assert (H : length (action_log start) ≤ 48) by (vm_compute; lia).
  split; [exact H|].
  destruct (toggle_twice start "12:00:00" "12:00:05") as ((_ & _ & _ & Hlen) & _).
  exact (Hlen H).
Defined.

Lemma unknown_route_no_view_witness :
  let s := exec (modify (set_page_route "/stats")) start in
  page_route s ≠ "/" ∧
  page_route s ≠ "/statistics" ∧
  startswith (page_route s) "/device/" = false ∧
  route_change s = (Ok tt, set_page_views [] s).
Proof.
  intros s.
  assert (H1 : page_route s ≠ "/") by discriminate.
  assert (H2 : page_route s ≠ "/statistics") by discriminate.
  assert (H3 : startswith (page_route s) "/device/" = false) by reflexivity.
  split_and!; [exact H1|exact H2|exact H3|].
  exact (unknown_route_no_view s H1 H2 H3).
Defined.

(** * Navigation in well-formed states *)

Lemma build_overview_view_exec s : exec build_overview_view s = s.
Proof. symmetry. apply (frame_build_overview_view eq). Qed.

Lemma build_device_details_view_exec i s :
  exec (build_device_details_view i) s = s.
Proof. symmetry. apply (frame_build_device_details_view eq). Qed.

Lemma last_item_split c s : ∃ x, last_item (split c s) = Ok x.
Proof.
  unfold last_item. destruct (last (split c s)) as [x|] eqn:E; [eauto|].
  apply last_None in E. by apply split_nonempty in E.
Qed.

(** What [route_change] does in a well-formed state, branch by branch. *)
Lemma route_change_wf s :
  wf s →
  let s0 := set_page_views [] s in
  (page_route s = "/" ∧
   ∃ w, build_overview_view s0 = (Ok (OverviewView w), s0) ∧
        route_change s = (Ok tt, set_page_views [OverviewView w] s0)) ∨
  (page_route s = "/statistics" ∧
   ∃ p, current_power_watts s0 = (Ok p, s0) ∧
        route_change s =
          (Ok tt,
           set_page_views [StatisticsView]
             (set_power_text
                [Lit "Current simulated power: "; format_num p; Lit " W"]
                s0))) ∨
  (startswith (page_route s) "/device/" = true ∧
   ∃ i, last_item (split "/" (page_route s)) = Ok i ∧
     ((∃ r w, devices s !! i = Some r ∧
              build_device_details_view i s0 = (Ok (DeviceDetailsView w), s0) ∧
              route_change s = (Ok tt, set_page_views [DeviceDetailsView w] s0)) ∨
      (devices s !! i = None ∧
       ∃ w, build_overview_view s0 = (Ok (OverviewView w), s0) ∧
            route_change s = (Ok tt, set_page_views [OverviewView w] s0)))) ∨
  (page_route s ≠ "/" ∧ page_route s ≠ "/statistics" ∧
   startswith (page_route s) "/device/" = false ∧
   route_change s = (Ok tt, s0)).
Proof.
  intros Hwf s0.
  assert (Hwf0 : wf s0) by exact Hwf.
  destruct Hwf as (_ & Ht & Hf).
  unfold route_change. cbv [mbind M_bind get modify lift]. fold s0.
  change (page_route s0) with (page_route s).
  change (devices s0) with (devices s).
  destruct (String.eqb_spec (page_route s) "/") as [E1|E1].
  { left. split; [done|].
    destruct (build_overview_view_ok s0 Ht Hf) as (w & Hw).
    exists w. by rewrite Hw. }
  destruct (String.eqb_spec (page_route s) "/statistics") as [E2|E2].
  { right; left. split; [done|].
    destruct (current_power_watts_ok s0 Ht Hf) as (p & Hp).
    exists p. split; [done|].
    unfold build_statistics_view, update_power_text.
    cbv [mbind M_bind get modify lift mret M_ret]. by rewrite Hp. }
  destruct (startswith (page_route s) "/device/") eqn:E3; [|by repeat right].
  right; right; left. split; [done|].
  destruct (last_item_split "/" (page_route s)) as (i & Hi).
  exists i. split; [done|]. rewrite Hi.
  destruct (devices s !! i) as [r|] eqn:Hlook.
  - left. rewrite bool_decide_eq_true_2 by eauto.
    destruct (build_device_details_view_ok s0 i r Hwf0 Hlook) as (w & Hw & _).
    exists r, w. by rewrite Hw.
  - right. rewrite bool_decide_eq_false_2
      by (change (devices s0) with (devices s); rewrite Hlook; by intros [? ?]).
    destruct (build_overview_view_ok s0 Ht Hf) as (w & Hw).
    split; [done|]. exists w. by rewrite Hw.
Qed.

(** In every reachable state navigation returns normally, whatever the
    route: to "/", to "/statistics", to a device route with a known or an
    unknown id, or to a route the program does not know. *)
Theorem page_go_total (s : State) (route : string) :
  reachable s → eval (page_go route) s = Ok tt.
Proof.
  intros Hs. apply reachable_wf in Hs.
  assert (Hwf : wf (set_page_route route s)) by exact Hs.
  unfold eval, page_go. cbv [mbind M_bind modify].
  destruct (route_change_wf _ Hwf)
    as [(_ & w & _ & ->)|[(_ & p & _ & ->)|[(_ & i & _ & H)|(_ & _ & _ & ->)]]];
    try done.
  by destruct H as [(r & w & _ & _ & ->)|(_ & w & _ & ->)].
Qed.

Lemma page_go_total_witness :
  reachable start ∧ eval (page_go "/device/nowhere") start = Ok tt.
Proof.
  split; [apply reachable_start|].
  apply (page_go_total start "/device/nowhere" reachable_start).
Defined.

Lemma build_overview_view_state s r s' :
  build_overview_view s = (r, s') → s' = s.
Proof.
  intros H. rewrite <- (build_overview_view_exec s). unfold exec. by rewrite H.
Qed.

Lemma build_device_details_view_state i s r s' :
  build_device_details_view i s = (r, s') → s' = s.
Proof.
  intros H. rewrite <- (build_device_details_view_exec i s).
  unfold exec. by rewrite H.
Qed.

Lemma build_statistics_view_views s r s' :
  build_statistics_view s = (r, s') → page_views s' = page_views s.
Proof.
  intros H.
  assert (Hfr : frame (λ s1 s2, page_views s2 = page_views s1)
                  build_statistics_view).
  { apply frame_build_statistics_view; [|done].
    split; [by intros ?|intros ? ? ? ? ?; congruence]. }
  specialize (Hfr s). unfold exec in Hfr. by rewrite H in Hfr.
Qed.

(** Whatever the state and the route, and also when building the view
    raises, [route_change] leaves at most one view on the page. *)
Theorem route_change_at_most_one_view (s : State) :
  length (page_views (exec route_change s)) ≤ 1.
Proof.
  unfold exec, route_change. cbv [mbind M_bind get modify lift].
  set (s0 := set_page_views [] s).
  destruct (String.eqb (page_route s0) "/").
  { destruct (build_overview_view s0) as [[v|e] s'] eqn:E;
      rewrite (build_overview_view_state _ _ _ E); simpl; lia. }
  destruct (String.eqb (page_route s0) "/statistics").
  { destruct (build_statistics_view s0) as [[v|e] s'] eqn:E;
      pose proof (build_statistics_view_views _ _ _ E) as Hv;
      simpl in *; rewrite ?Hv; simpl; lia. }
  destruct (startswith (page_route s0) "/device/"); [|simpl; lia].
  destruct (last_item (split "/" (page_route s0))) as [i|e]; [|simpl; lia].
  destruct (bool_decide (is_Some (devices s0 !! i))).
  - destruct (build_device_details_view i s0) as [[v|e] s'] eqn:E;
      rewrite (build_device_details_view_state _ _ _ _ E); simpl; lia.
  - destruct (build_overview_view s0) as [[v|e] s'] eqn:E;
      rewrite (build_overview_view_state _ _ _ E); simpl; lia.
Qed.

(** Navigating to "/statistics" in a reachable state shows the statistics
    view with the power label refreshed to the current estimate; devices, log
    and table are left as they were. *)
Theorem statistics_route (s : State) :
  reachable s → page_route s = "/statistics" →
  ∃ p, eval current_power_watts s = Ok p ∧
       route_change s =
         (Ok tt,
          set_page_views [StatisticsView]
            (set_power_text
               [Lit "Current simulated power: "; format_num p; Lit " W"] s)).
Proof.
  intros Hs Hroute.
  destruct (route_change_wf s (reachable_wf s Hs))
    as [(E & _)|[(_ & p & Hp & H)|[(E & _)|(_ & E & _)]]].
  - by rewrite Hroute in E.
  - exists p. split; [|exact H].
    rewrite <- (current_power_watts_ext (set_page_views [] s) s) by done.
    unfold eval. by rewrite Hp.
  - by rewrite Hroute in E.
  - done.
Qed.

Lemma statistics_route_witness :
  let s := run [Go "/statistics"] start in
  reachable s ∧ page_route s = "/statistics" ∧
  ∃ p, eval current_power_watts s = Ok p ∧
       power_text (exec route_change s)
       = [Lit "Current simulated power: "; format_num p; Lit " W"].
Proof.
  intros s.
  assert (Hs : reachable s).
  { apply (reachable_step start (Go "/statistics"));
      [apply reachable_start | reflexivity]. }
  assert (Hr : page_route s = "/statistics") by reflexivity.
  split; [exact Hs|]. split; [exact Hr|].
  destruct (statistics_route s Hs Hr) as (p & Hp & H).
  exists p. split; [exact Hp|]. unfold exec. rewrite H. reflexivity.
Defined.
